(** * LazyMinter: signed NFT vouchers (lazy-minting/lib/LazyMinter.js)

    A shallow embedding of the [LazyMinter] class.  The class holds a
    contract address, an injected ethers signer, the EIP-712 type table and
    a lazily filled signing domain.  The two collaborators it calls, the
    signer ([getChainId], [signMessage]) and [TypedDataUtils.encodeDigest]
    of the ethers-eip712 package, live outside the repository: they are
    parameters of the development.  Every call made to them is recorded,
    with its argument and its outcome, in a call log, so that statements
    about what was asked of them, and in which order, can be made. *)

From Stdlib Require Import Strings.String Strings.Ascii Strings.Byte.
From Stdlib Require Import DecimalString ZArith QArith List Bool Lia.
Import ListNotations.
Local Open Scope string_scope.
Local Open Scope list_scope.

(** ** Data *)

Definition bytes := list byte.

(** [ethers.BigNumber | number]: a JavaScript number may be negative or
    fractional, so it is a rational here; a BigNumber is an integer. *)
Inductive numeric : Type :=
| Number (q : Q)
| BigNumber (z : Z).

(** One entry [{name: ..., type: ...}] of a type description. *)
Record TypedDataField : Type := mkField {
  field_name : string;
  field_type : string
}.

(** The object literal assigned to [this.types]: keys in insertion order. *)
Definition TypeSchema := list (string * list TypedDataField).

Record SigningDomain : Type := mkDomain {
  name : string;
  version : string;
  verifyingContract : string;
  chainId : Z
}.

Record NFTVoucher : Type := mkVoucher {
  tokenId : numeric;
  uri : string;
  minPrice : numeric
}.

(** The envelope built by [_formatVoucher] and handed to [encodeDigest]. *)
Module EIP712.
Record TypedData : Type := mk {
  domain : SigningDomain;
  types : TypeSchema;
  primaryType : string;
  message : NFTVoucher
}.
End EIP712.

Record CreateVoucherResult : Type := mkResult {
  voucher : NFTVoucher;
  signature : bytes;
  digest : bytes
}.

(** These constants must match the ones used in the smart contract. *)
Definition SIGNING_DOMAIN_NAME : string := "LazyNFT-Voucher".
Definition SIGNING_DOMAIN_VERSION : string := "1".

(** The literal of the constructor, lines 33-45. *)
Definition TYPES : TypeSchema :=
  [ ("EIP712Domain",
      [ mkField "name" "string";
        mkField "version" "string";
        mkField "chainId" "uint256";
        mkField "verifyingContract" "address" ]);
    ("NFTVoucher",
      [ mkField "tokenId" "uint256";
        mkField "minPrice" "uint256";
        mkField "uri" "string" ]) ].

Section LazyMinter.

(** What a JavaScript [throw] carries, and the hidden state of the outside
    world the signer talks to (network, key store, randomness). *)
Variable exn : Type.
Variable World : Type.

(** [TypedDataUtils.encodeDigest]: a pure function of the envelope, which
    may throw (for instance on a value that does not fit its type). *)
Variable encodeDigest : EIP712.TypedData -> exn + bytes.

(** The two methods of the ethers signer the class uses.  Each may fail,
    and each may change the world. *)
Record Signer : Type := mkSigner {
  getChainId : World -> (exn + Z) * World;
  signMessage : bytes -> World -> (exn + bytes) * World
}.

(** The instance fields. [_domain] is [undefined] until first resolved. *)
Record LazyMinter : Type := mkLazyMinter {
  contractAddress : string;
  signer : Signer;
  types : TypeSchema;
  _domain : option SigningDomain
}.

(** Calls that leave the class, with what they were given and returned. *)
Inductive Event : Type :=
| GetChainId (r : exn + Z)
| EncodeDigest (td : EIP712.TypedData) (r : exn + bytes)
| SignMessage (msg : bytes) (r : exn + bytes).

Record Heap : Type := mkHeap {
  this : LazyMinter;
  world : World;
  calls : list Event
}.

(** ** The monad of async methods

    An async method runs on the heap and either resolves with a value or
    rejects with what was thrown.  A rejection does not roll anything
    back: the heap reached when the exception was thrown is kept. *)
Definition Async (A : Type) : Type := Heap -> (exn + A) * Heap.

Definition ret {A} (a : A) : Async A := fun h => (inr a, h).

Definition bind {A B} (c : Async A) (k : A -> Async B) : Async B :=
  fun h =>
    match c h with
    | (inl e, h') => (inl e, h')
    | (inr a, h') => k a h'
    end.

Notation "x <- c ;; k" := (bind c (fun x => k))
  (at level 61, c at next level, right associativity).
Notation "c ;;; k" := (bind c (fun _ => k))
  (at level 61, right associativity).

Definition read_this : Async LazyMinter := fun h => (inr (this h), h).

(** [this._domain = d] *)
Definition assign_domain (d : SigningDomain) : Async unit :=
  fun h =>
    let m := this h in
    (inr tt,
     mkHeap (mkLazyMinter (contractAddress m) (signer m) (types m) (Some d))
            (world h) (calls h)).

Definition log (ev : Event) (h : Heap) (w : World) : Heap :=
  mkHeap (this h) w (calls h ++ [ev]).

(** [await this.signer.getChainId()] *)
Definition signer_getChainId : Async Z :=
  fun h =>
    let (r, w) := getChainId (signer (this h)) (world h) in
    (r, log (GetChainId r) h w).

(** [await this.signer.signMessage(msg)] *)
Definition signer_signMessage (msg : bytes) : Async bytes :=
  fun h =>
    let (r, w) := signMessage (signer (this h)) msg (world h) in
    (r, log (SignMessage msg r) h w).

(** [TypedDataUtils.encodeDigest(td)] *)
Definition TypedDataUtils_encodeDigest (td : EIP712.TypedData) : Async bytes :=
  fun h =>
    let r := encodeDigest td in
    (r, log (EncodeDigest td r) h (world h)).

(** ** The class *)

(** [constructor({ contractAddress, signer })] *)
Definition new_LazyMinter (contractAddress : string) (signer : Signer)
  : LazyMinter :=
  mkLazyMinter contractAddress signer TYPES None.

(** [async _signingDomain()] *)
Definition _signingDomain : Async SigningDomain :=
  self <- read_this ;;
  match _domain self with
  | Some d => ret d
  | None =>
      chainId <- signer_getChainId ;;
      self <- read_this ;;
      let d := mkDomain SIGNING_DOMAIN_NAME SIGNING_DOMAIN_VERSION
                        (contractAddress self) chainId in
      assign_domain d ;;;
      ret d
  end.

(** [async _formatVoucher(voucher)] *)
Definition _formatVoucher (voucher : NFTVoucher) : Async EIP712.TypedData :=
  domain <- _signingDomain ;;
  self <- read_this ;;
  ret (EIP712.mk domain (types self) "NFTVoucher" voucher).

(** [async createVoucher(tokenId, uri, minPrice = 0)]: an omitted
    [minPrice] is [None] and takes the default. *)
Definition createVoucher (tokenId : numeric) (uri : string)
    (minPrice : option numeric) : Async CreateVoucherResult :=
  let minPrice := match minPrice with
                  | Some p => p
                  | None => Number 0
                  end in
  let voucher := mkVoucher tokenId uri minPrice in
  typedData <- _formatVoucher voucher ;;
  digest <- TypedDataUtils_encodeDigest typedData ;;
  signature <- signer_signMessage digest ;;
  ret (mkResult voucher signature digest).

(** ** Sequences of calls

    A caller issuing calls one after the other, each awaited (and its
    rejection, if any, caught) before the next is made. *)
Record Call : Type := mkCall {
  call_tokenId : numeric;
  call_uri : string;
  call_minPrice : option numeric
}.

Definition run_call (c : Call) : Async CreateVoucherResult :=
  createVoucher (call_tokenId c) (call_uri c) (call_minPrice c).

Fixpoint createVouchers (cs : list Call) (h : Heap)
  : list (exn + CreateVoucherResult) * Heap :=
  match cs with
  | [] => ([], h)
  | c :: cs' =>
      let (r, h1) := run_call c h in
      let (rs, h2) := createVouchers cs' h1 in
      (r :: rs, h2)
  end.

(** The heap right after [new LazyMinter({contractAddress, signer})]. *)
Definition fresh (contractAddress : string) (s : Signer) (w : World) : Heap :=
  mkHeap (new_LazyMinter contractAddress s) w [].

End LazyMinter.

Arguments mkSigner {exn World} _ _.
Arguments getChainId {exn World} _ _.
Arguments signMessage {exn World} _ _ _.
Arguments mkLazyMinter {exn World} _ _ _ _.
Arguments contractAddress {exn World} _.
Arguments signer {exn World} _.
Arguments types {exn World} _.
Arguments _domain {exn World} _.
Arguments GetChainId {exn} _.
Arguments EncodeDigest {exn} _ _.
Arguments SignMessage {exn} _ _.
Arguments mkHeap {exn World} _ _ _.
Arguments this {exn World} _.
Arguments world {exn World} _.
Arguments calls {exn World} _.
Arguments ret {exn World A} _ _.
Arguments bind {exn World A B} _ _ _.
Arguments read_this {exn World} _.
Arguments assign_domain {exn World} _ _.
Arguments log {exn World} _ _ _.
Arguments signer_getChainId {exn World} _.
Arguments signer_signMessage {exn World} _ _.
Arguments TypedDataUtils_encodeDigest {exn World} _ _ _.
Arguments new_LazyMinter {exn World} _ _.
Arguments _signingDomain {exn World} _.
Arguments _formatVoucher {exn World} _ _.
Arguments createVoucher {exn World} _ _ _ _ _.
Arguments run_call {exn World} _ _ _.
Arguments createVouchers {exn World} _ _ _.
Arguments fresh {exn World} _ _ _.

(** ** Log observers *)

Definition is_query {exn} (ev : Event exn) : bool :=
  match ev with GetChainId _ => true | _ => false end.

Definition is_query_ok {exn} (ev : Event exn) : bool :=
  match ev with GetChainId (inr _) => true | _ => false end.

Definition is_query_failed {exn} (ev : Event exn) : bool :=
  match ev with GetChainId (inl _) => true | _ => false end.

Definition is_signing {exn} (ev : Event exn) : bool :=
  match ev with SignMessage _ _ => true | _ => false end.

Definition count {A} (p : A -> bool) (l : list A) : nat :=
  length (filter p l).

(** The envelopes that were handed to [encodeDigest], oldest first. *)
Fixpoint envelopes {exn} (evs : list (Event exn)) : list EIP712.TypedData :=
  match evs with
  | [] => []
  | EncodeDigest td _ :: evs' => td :: envelopes evs'
  | _ :: evs' => envelopes evs'
  end.

Definition is_digest {exn} (ev : Event exn) : bool :=
  match ev with EncodeDigest _ _ => true | _ => false end.

(** What a logged call was rejected with, when it was. *)
Definition event_error {exn} (ev : Event exn) : option exn :=
  match ev with
  | GetChainId (inl e) => Some e
  | EncodeDigest _ (inl e) => Some e
  | SignMessage _ (inl e) => Some e
  | _ => None
  end.

(** The signing requests the signer answered, as (message, signature),
    oldest first. *)
Fixpoint answered {exn} (evs : list (Event exn)) : list (bytes * bytes) :=
  match evs with
  | [] => []
  | SignMessage msg (inr sg) :: evs' => (msg, sg) :: answered evs'
  | _ :: evs' => answered evs'
  end.

(** The (digest, signature) of every result a caller got back, in order. *)
Fixpoint returned {exn} (rs : list (exn + CreateVoucherResult))
  : list (bytes * bytes) :=
  match rs with
  | [] => []
  | inr r :: rs' => (digest r, signature r) :: returned rs'
  | inl _ :: rs' => returned rs'
  end.

(** ** Test doubles

    Fixed, deterministic stand-ins for the collaborators, in the manner of
    the test wallets of a local development chain.  Exceptions are their
    messages; the world is the number of requests the signer has served. *)
Module Double.

Definition add_byte (a b : byte) : byte :=
  match Byte.of_N ((Byte.to_N a + Byte.to_N b) mod 256) with
  | Some c => c
  | None => x00
  end.

(** A 32-byte checksum standing in for keccak256: every input byte is
    added into a rotating 32-byte accumulator. *)
Definition absorb (acc : bytes) (b : byte) : bytes :=
  match acc with
  | [] => []
  | a :: rest => rest ++ [add_byte a b]
  end.

Definition checksum32 (bs : bytes) : bytes :=
  fold_left absorb bs (repeat x00 32).

(** The value of a [uint256] field, when the given number is one. *)
Definition as_uint256 (n : numeric) : option Z :=
  match n with
  | Number q =>
      if ((Qnum q mod Zpos (Qden q) =? 0) && (0 <=? Qnum q)
          && (Qnum q / Zpos (Qden q) <? 2 ^ 256))%Z
      then Some (Qnum q / Zpos (Qden q))%Z else None
  | BigNumber z =>
      if ((0 <=? z) && (z <? 2 ^ 256))%Z then Some z else None
  end.

Definition byte_of_Z (z : Z) : byte :=
  match Byte.of_N (Z.to_N (z mod 256)) with
  | Some c => c
  | None => x00
  end.

(** 32 bytes, big-endian. *)
Definition uint256_bytes (z : Z) : bytes :=
  map (fun i => byte_of_Z (z / 2 ^ (8 * Z.of_nat i))) (rev (seq 0 32)).

Definition domain_bytes (d : SigningDomain) : bytes :=
  list_byte_of_string (name d) ++ list_byte_of_string (version d)
    ++ uint256_bytes (chainId d) ++ list_byte_of_string (verifyingContract d).

(** Stand-in for [TypedDataUtils.encodeDigest]: rejects a number that is
    no [uint256], as the ABI coder does, and otherwise returns 32 bytes
    that depend on every part of the envelope. *)
Definition encodeDigest (td : EIP712.TypedData) : string + bytes :=
  let m := EIP712.message td in
  match as_uint256 (tokenId m), as_uint256 (minPrice m) with
  | Some t, Some p =>
      inr (checksum32
             ([x19; x01]
                ++ checksum32 (domain_bytes (EIP712.domain td))
                ++ checksum32 (list_byte_of_string (EIP712.primaryType td)
                                 ++ uint256_bytes t ++ uint256_bytes p
                                 ++ checksum32 (list_byte_of_string (uri m)))))
  | _, _ => inl "value out-of-bounds"
  end.

(** The raw signing primitive of the test key: signs the bytes it is
    given, as they are. *)
Definition signDigest (d : bytes) : bytes := rev d ++ [x1b].

(** The message hash of ethers ([hashMessage]): the message is prefixed
    with byte 0x19, the personal-message header and its length in decimal,
    then hashed. *)
Definition hashMessage (msg : bytes) : bytes :=
  checksum32 ([x19] ++ list_byte_of_string "Ethereum Signed Message:" ++ [x0a]
                ++ list_byte_of_string
                     (NilEmpty.string_of_uint (Nat.to_uint (length msg)))
                ++ msg).

Definition chain : Z := 31337.

(** A signer that signs what it is given, raw. *)
Definition rawSigner : Signer string nat :=
  mkSigner (fun w => (inr chain, S w))
           (fun msg w => (inr (signDigest msg), S w)).

(** A signer built as an ethers wallet is: [signMessage] signs the
    prefixed hash of the message. *)
Definition walletSigner : Signer string nat :=
  mkSigner (fun w => (inr chain, S w))
           (fun msg w => (inr (signDigest (hashMessage msg)), S w)).

(** A signer whose provider cannot be reached. *)
Definition offlineSigner : Signer string nat :=
  mkSigner (fun w => (inl "could not detect network", S w))
           (fun msg w => (inr (signDigest msg), S w)).

(** A signer whose provider answers from the second request on. *)
Definition flakySigner : Signer string nat :=
  mkSigner (fun w => match w with
                     | O => (inl "could not detect network", S w)
                     | _ => (inr chain, S w)
                     end)
           (fun msg w => (inr (signDigest msg), S w)).

(** A signer whose user rejects every signing request. *)
Definition lockedSigner : Signer string nat :=
  mkSigner (fun w => (inr chain, S w))
           (fun msg w => (inl "user rejected signing", S w)).

Definition address : string := "0x5FbDB2315678afecb367f032d93F642f64180aa3".

End Double.

(** ** Shapes used in the statements *)

Section Shapes.

Context {exn World : Type}.

Implicit Types (h : Heap exn World) (d : SigningDomain).

(** The voucher assembled on line 64. *)
Definition voucher_of (t : numeric) (u : string) (p : option numeric)
  : NFTVoucher :=
  mkVoucher t u (match p with Some x => x | None => Number 0 end).

(** The domain built on lines 84-89 for chain id [c]. *)
Definition domain_for h (c : Z) : SigningDomain :=
  mkDomain SIGNING_DOMAIN_NAME SIGNING_DOMAIN_VERSION
           (contractAddress (this h)) c.

(** The heap after [this._domain = ...] and a chain-id query that answered
    [c] and left the world in [w]. *)
Definition resolved_heap h (c : Z) (w : World) : Heap exn World :=
  mkHeap (mkLazyMinter (contractAddress (this h)) (signer (this h))
                       (types (this h)) (Some (domain_for h c)))
         w (calls h ++ [GetChainId (inr c)]).

(** The envelope of lines 100-105 for domain [d]. *)
Definition envelope_of h d (t : numeric) (u : string) (p : option numeric)
  : EIP712.TypedData :=
  EIP712.mk d (types (this h)) "NFTVoucher" (voucher_of t u p).

(** What was logged between [h] and a later heap [h']. *)
Definition new_events h h' : list (Event exn) :=
  skipn (length (calls h)) (calls h').

Definition same_fields h h' : Prop :=
  contractAddress (this h') = contractAddress (this h)
  /\ signer (this h') = signer (this h)
  /\ types (this h') = types (this h).

Definition domain_set_once h h' : Prop :=
  _domain (this h') = _domain (this h)
  \/ (_domain (this h) = None
      /\ exists c, _domain (this h') = Some (domain_for h c)).

(** A cached domain is the one the constructor's address and some answered
    chain-id query give. *)
Definition cached_domain_ok h : Prop :=
  forall d, _domain (this h) = Some d ->
    d = domain_for h (chainId d)
    /\ In (GetChainId (inr (chainId d))) (calls h).

End Shapes.

(** * Properties *)

Section Properties.

Context {exn World : Type}.
Variable encodeDigest : EIP712.TypedData -> exn + bytes.

Implicit Types (h : Heap exn World) (d : SigningDomain) (e : exn).

(** ** [_signingDomain], case by case *)

Lemma signingDomain_cached h d :
  _domain (this h) = Some d -> _signingDomain h = (inr d, h).
Proof.
  intros Hd. unfold _signingDomain, bind, read_this. now rewrite Hd.
Qed.

Lemma signingDomain_rejected h e w :
  _domain (this h) = None ->
  getChainId (signer (this h)) (world h) = (inl e, w) ->
  _signingDomain h = (inl e, log (GetChainId (inl e)) h w).
Proof.
  intros Hd Hq. unfold _signingDomain, bind, read_this, signer_getChainId.
  now rewrite Hd, Hq.
Qed.

Lemma signingDomain_resolved h c w :
  _domain (this h) = None ->
  getChainId (signer (this h)) (world h) = (inr c, w) ->
  _signingDomain h = (inr (domain_for h c), resolved_heap h c w).
Proof.
  intros Hd Hq. unfold _signingDomain, bind, read_this, signer_getChainId.
  now rewrite Hd, Hq.
Qed.

(** ** [createVoucher] as one case analysis *)

Lemma createVoucher_unfold t u p h :
  createVoucher encodeDigest t u p h =
    match _signingDomain h with
    | (inl e, h1) => (inl e, h1)
    | (inr d, h1) =>
        let td := envelope_of h1 d t u p in
        match encodeDigest td with
        | inl e => (inl e, log (EncodeDigest td (inl e)) h1 (world h1))
        | inr dg =>
            let h2 := log (EncodeDigest td (inr dg)) h1 (world h1) in
            match signMessage (signer (this h1)) dg (world h1) with
            | (inl e, w) => (inl e, log (SignMessage dg (inl e)) h2 w)
            | (inr sg, w) =>
                (inr (mkResult (voucher_of t u p) sg dg),
                 log (SignMessage dg (inr sg)) h2 w)
            end
        end
    end.
Proof.
  unfold createVoucher, _formatVoucher, bind, read_this, ret,
    TypedDataUtils_encodeDigest, signer_signMessage, envelope_of, voucher_of.
  destruct (_signingDomain h) as [[e|d] h1]; [reflexivity|].
  cbn. destruct (encodeDigest _) as [e|dg]; [reflexivity|].
  cbn. destruct (signMessage _ _ _) as [[e|sg] w]; reflexivity.
Qed.

Lemma new_events_app h (m : LazyMinter exn World) (w : World) evs :
  new_events h (mkHeap m w (calls h ++ evs)) = evs.
Proof.
  unfold new_events. cbn [calls].
  rewrite skipn_app, skipn_all, Nat.sub_diag. reflexivity.
Qed.

Lemma new_events_refl h : new_events h h = [].
Proof. unfold new_events. apply skipn_all. Qed.

(** Splits a call into its runs: domain cached, chain-id query rejected,
    or domain resolved now; then digest rejected, signing rejected, or
    all well. *)
Ltac tidy :=
  unfold log, resolved_heap in *;
  cbn [this world calls types signer contractAddress _domain fst snd] in *;
  rewrite <- ?app_assoc; cbn [app];
  rewrite ?new_events_app, ?new_events_refl.

Ltac split_runs h :=
  rewrite ?createVoucher_unfold;
  let d0 := fresh "d0" in
  let Hdom := fresh "Hdom" in
  let Hq := fresh "Hq" in
  let Henc := fresh "Henc" in
  let Hsig := fresh "Hsig" in
  destruct (_domain (this h)) as [d0|] eqn:Hdom;
  [ rewrite !(signingDomain_cached h d0 Hdom)
  | let e0 := fresh "e0" in
    let c0 := fresh "c0" in
    let w0 := fresh "w0" in
    destruct (getChainId (signer (this h)) (world h)) as [[e0|c0] w0] eqn:Hq;
    [ rewrite !(signingDomain_rejected h e0 w0 Hdom Hq)
    | rewrite !(signingDomain_resolved h c0 w0 Hdom Hq) ] ];
  tidy;
  try (destruct (encodeDigest _) as [?e|?dg] eqn:Henc;
       [ | destruct (signMessage _ _ _) as [[?e|?sg] ?w] eqn:Hsig ]);
  tidy.

(** ** What a call leaves untouched *)

Lemma call_frame t u p h :
  let h' := snd (createVoucher encodeDigest t u p h) in
  same_fields h h' /\ domain_set_once h h'.
Proof.
  unfold same_fields, domain_set_once.
  split_runs h; rewrite ?Hdom; intuition eauto.
Qed.

Lemma same_fields_refl h : same_fields h h.
Proof. now unfold same_fields. Qed.

Lemma same_fields_trans h1 h2 h3 :
  same_fields h1 h2 -> same_fields h2 h3 -> same_fields h1 h3.
Proof. unfold same_fields. intuition congruence. Qed.

Lemma createVouchers_cons c cs h :
  createVouchers encodeDigest (c :: cs) h =
    (fst (run_call encodeDigest c h)
       :: fst (createVouchers encodeDigest cs (snd (run_call encodeDigest c h))),
     snd (createVouchers encodeDigest cs (snd (run_call encodeDigest c h)))).
Proof.
  cbn [createVouchers].
  destruct (run_call encodeDigest c h) as [r h1]. cbn [fst snd].
  now destruct (createVouchers encodeDigest cs h1).
Qed.

Lemma calls_frame cs : forall h,
  same_fields h (snd (createVouchers encodeDigest cs h)).
Proof.
  induction cs as [|c cs IH]; intros h.
  - apply same_fields_refl.
  - rewrite createVouchers_cons. cbn [snd].
    eapply same_fields_trans; [|apply IH].
    apply (call_frame (call_tokenId c) (call_uri c) (call_minPrice c) h).
Qed.

(** Once cached, the domain stays as it is. *)
Lemma call_keeps_domain t u p h d :
  _domain (this h) = Some d ->
  _domain (this (snd (createVoucher encodeDigest t u p h))) = Some d.
Proof.
  intros Hd.
  destruct (call_frame t u p h) as [_ [Heq|[Hn _]]]; congruence.
Qed.

Lemma calls_keep_domain cs : forall h d,
  _domain (this h) = Some d ->
  _domain (this (snd (createVouchers encodeDigest cs h))) = Some d.
Proof.
  induction cs as [|c cs IH]; intros h d Hd; [exact Hd|].
  rewrite createVouchers_cons. cbn [snd].
  apply IH. now apply call_keeps_domain.
Qed.

(** ** The log only grows *)

Lemma call_log_grows t u p h :
  let h' := snd (createVoucher encodeDigest t u p h) in
  calls h' = calls h ++ new_events h h'.
Proof.
  split_runs h; rewrite ?app_nil_r; reflexivity.
Qed.

Lemma new_events_trans h1 h2 h3 :
  calls h2 = calls h1 ++ new_events h1 h2 ->
  calls h3 = calls h2 ++ new_events h2 h3 ->
  calls h3 = calls h1 ++ new_events h1 h3
  /\ new_events h1 h3 = new_events h1 h2 ++ new_events h2 h3.
Proof.
  intros H12 H23.
  assert (E : calls h3 = calls h1 ++ new_events h1 h2 ++ new_events h2 h3).
  { rewrite H23 at 1. rewrite H12 at 1. now rewrite app_assoc. }
  assert (N : new_events h1 h3 = new_events h1 h2 ++ new_events h2 h3).
  { unfold new_events at 1. rewrite E.
    rewrite skipn_app, skipn_all, Nat.sub_diag. reflexivity. }
  split; [now rewrite N|exact N].
Qed.

Lemma calls_log_grows cs : forall h,
  let h' := snd (createVouchers encodeDigest cs h) in
  calls h' = calls h ++ new_events h h'.
Proof.
  induction cs as [|c cs IH]; intros h; cbn zeta.
  - cbn [createVouchers snd]. now rewrite new_events_refl, app_nil_r.
  - rewrite createVouchers_cons. cbn [snd].
    eapply new_events_trans; [|apply IH].
    apply (call_log_grows (call_tokenId c) (call_uri c) (call_minPrice c) h).
Qed.

Lemma calls_events_cons c cs h :
  let h1 := snd (run_call encodeDigest c h) in
  new_events h (snd (createVouchers encodeDigest (c :: cs) h)) =
    new_events h h1 ++ new_events h1 (snd (createVouchers encodeDigest cs h1)).
Proof.
  cbn zeta. rewrite createVouchers_cons. cbn [snd].
  eapply new_events_trans; [|apply calls_log_grows].
  apply (call_log_grows (call_tokenId c) (call_uri c) (call_minPrice c) h).
Qed.

(** ** Calls on a resolved instance *)

Lemma count_app {A} (f : A -> bool) l1 l2 :
  count f (l1 ++ l2) = (count f l1 + count f l2)%nat.
Proof. unfold count. now rewrite filter_app, length_app. Qed.

Lemma envelopes_app (l1 l2 : list (Event exn)) :
  envelopes (l1 ++ l2) = envelopes l1 ++ envelopes l2.
Proof.
  induction l1 as [|[r|td r|m r] l1 IH]; cbn [envelopes app];
    now rewrite ?IH.
Qed.

Lemma resolved_call_events t u p h d :
  _domain (this h) = Some d ->
  let h' := snd (createVoucher encodeDigest t u p h) in
  count is_query (new_events h h') = 0%nat
  /\ Forall (fun td => EIP712.domain td = d) (envelopes (new_events h h')).
Proof.
  intros Hd. split_runs h; try congruence;
    assert (d0 = d) by congruence; subst d0;
    (split; [reflexivity|repeat constructor]).
Qed.

Lemma resolved_calls_events cs : forall h d,
  _domain (this h) = Some d ->
  let h' := snd (createVouchers encodeDigest cs h) in
  count is_query (new_events h h') = 0%nat
  /\ Forall (fun td => EIP712.domain td = d) (envelopes (new_events h h')).
Proof.
  induction cs as [|c cs IH]; intros h d Hd; cbn zeta.
  - cbn [createVouchers snd]. rewrite new_events_refl. now split.
  - rewrite calls_events_cons.
    pose proof (resolved_call_events (call_tokenId c) (call_uri c)
                  (call_minPrice c) h d Hd) as [Q1 E1].
    pose proof (call_keeps_domain (call_tokenId c) (call_uri c)
                  (call_minPrice c) h d Hd) as Hd1.
    destruct (IH _ _ Hd1) as [Q2 E2].
    unfold run_call. rewrite count_app, envelopes_app, Q1, Q2.
    split; [reflexivity|]. apply Forall_app. now split.
Qed.

(** ** Calls on an unresolved instance *)

Lemma unresolved_call_events t u p h :
  _domain (this h) = None ->
  let h' := snd (createVoucher encodeDigest t u p h) in
  (exists e, new_events h h' = [GetChainId (inl e)]
             /\ _domain (this h') = None)
  \/ (exists c rest, new_events h h' = GetChainId (inr c) :: rest
                     /\ count is_query rest = 0%nat
                     /\ _domain (this h') = Some (domain_for h c)).
Proof.
  intros Hd. split_runs h; try congruence.
  - left. eauto.
  - right. do 2 eexists. repeat split; reflexivity.
  - right. do 2 eexists. repeat split; reflexivity.
  - right. do 2 eexists. repeat split; reflexivity.
Qed.

Lemma count_ok_le_query (l : list (Event exn)) :
  (count is_query_ok l <= count is_query l)%nat.
Proof.
  unfold count.
  induction l as [|[[e|c]|td r|m r] l IH]; cbn [filter is_query_ok is_query length];
    lia.
Qed.

Lemma count_query_split (l : list (Event exn)) :
  count is_query l = (count is_query_ok l + count is_query_failed l)%nat.
Proof.
  unfold count.
  induction l as [|[[e|c]|td r|m r] l IH];
    cbn [filter is_query_ok is_query is_query_failed length]; lia.
Qed.

Lemma query_in_middle (l1 l2 : list (Event exn)) r :
  (1 <= count is_query (l1 ++ GetChainId r :: l2))%nat.
Proof.
  rewrite count_app. unfold count at 2. cbn [filter is_query length]. lia.
Qed.

(** The chain-id queries of a run of calls: at most one is answered, and
    nothing is queried after the answered one. *)
Lemma calls_queries cs : forall h,
  let evs := new_events h (snd (createVouchers encodeDigest cs h)) in
  (count is_query_ok evs <= 1)%nat
  /\ (forall l1 c l2, evs = l1 ++ GetChainId (inr c) :: l2 ->
                      count is_query l2 = 0%nat).
Proof.
  induction cs as [|c cs IH]; intros h; cbn zeta.
  - cbn [createVouchers snd]. rewrite new_events_refl. split; [cbn; lia|].
    intros [|x l1] c l2 H; discriminate H.
  - destruct (_domain (this h)) as [d|] eqn:Hd.
    + destruct (resolved_calls_events (c :: cs) h d Hd) as [Q _].
      split.
      * pose proof (count_ok_le_query
          (new_events h (snd (createVouchers encodeDigest (c :: cs) h)))). lia.
      * intros l1 c1 l2 E. rewrite E in Q.
        pose proof (query_in_middle l1 l2 (inr c1)). lia.
    + rewrite calls_events_cons. unfold run_call.
      set (h1 := snd (createVoucher encodeDigest (call_tokenId c) (call_uri c)
                        (call_minPrice c) h)).
      destruct (unresolved_call_events (call_tokenId c) (call_uri c)
                  (call_minPrice c) h Hd)
        as [(e & E1 & Hd1)|(c0 & rest & E1 & Q1 & Hd1)];
        fold h1 in E1, Hd1; rewrite E1.
      * destruct (IH h1) as [B S]. split.
        -- rewrite count_app. unfold count at 1. cbn. exact B.
        -- intros [|x l1] c1 l2 E; cbn [app] in E; [discriminate E|].
           injection E as _ E. eapply S; eassumption.
      * destruct (resolved_calls_events cs h1 _ Hd1) as [Q2 _].
        set (evs2 := new_events h1 (snd (createVouchers encodeDigest cs h1)))
          in *.
        assert (Q : count is_query (rest ++ evs2) = 0%nat)
          by (rewrite count_app; lia).
        split.
        -- cbn [app]. change (GetChainId (inr c0) :: rest ++ evs2)
             with ([GetChainId (inr c0)] ++ (rest ++ evs2)).
           rewrite count_app. unfold count at 1. cbn [filter is_query_ok length].
           pose proof (count_ok_le_query (rest ++ evs2)). lia.
        -- intros [|x l1] c1 l2 E; cbn [app] in E; injection E as E0 E.
           ++ now rewrite <- E.
           ++ rewrite E in Q. pose proof (query_in_middle l1 l2 (inr c1)). lia.
Qed.

(** ** Successful calls *)

Lemma success_digest t u p h r :
  fst (createVoucher encodeDigest t u p h) = inr r ->
  exists d,
    _domain (this (snd (createVoucher encodeDigest t u p h))) = Some d
    /\ encodeDigest (envelope_of h d t u p) = inr (digest r)
    /\ voucher r = voucher_of t u p.
Proof.
  split_runs h; intros H; try discriminate H;
    injection H as <-; eexists;
    (split; [first [exact Hdom | reflexivity]|]); split;
    solve [reflexivity | exact Henc].
Qed.

Lemma resolved_success_digest t u p h d r :
  _domain (this h) = Some d ->
  fst (createVoucher encodeDigest t u p h) = inr r ->
  encodeDigest (envelope_of h d t u p) = inr (digest r)
  /\ voucher r = voucher_of t u p.
Proof.
  intros Hd H.
  destruct (success_digest t u p h r H) as (d' & Hd' & He & Hv).
  rewrite (call_keeps_domain t u p h d Hd) in Hd'.
  injection Hd' as <-. now split.
Qed.

Lemma envelope_of_same h h' d t u p :
  same_fields h h' -> envelope_of h' d t u p = envelope_of h d t u p.
Proof. intros (_ & _ & Ht). unfold envelope_of. now rewrite Ht. Qed.

(** ** Envelopes *)

Lemma call_envelopes t u p h :
  let h' := snd (createVoucher encodeDigest t u p h) in
  Forall (fun td => EIP712.primaryType td = "NFTVoucher"
                    /\ EIP712.types td = types (this h)
                    /\ EIP712.message td = voucher_of t u p)
         (envelopes (new_events h h')).
Proof.
  split_runs h; cbn [envelopes]; repeat constructor.
Qed.

Lemma calls_envelopes cs : forall h,
  let h' := snd (createVouchers encodeDigest cs h) in
  Forall (fun td => EIP712.primaryType td = "NFTVoucher"
                    /\ EIP712.types td = types (this h))
         (envelopes (new_events h h')).
Proof.
  induction cs as [|c cs IH]; intros h; cbn zeta.
  - cbn [createVouchers snd]. rewrite new_events_refl. constructor.
  - rewrite calls_events_cons, envelopes_app. apply Forall_app. split.
    + eapply Forall_impl;
        [|apply (call_envelopes (call_tokenId c) (call_uri c)
                   (call_minPrice c) h)].
      cbn beta. intuition.
    + eapply Forall_impl; [|apply IH]. cbn beta. intros td [Hp Ht].
      split; [exact Hp|]. rewrite Ht. unfold run_call.
      apply (call_frame (call_tokenId c) (call_uri c) (call_minPrice c) h).
Qed.

(** Every digest computation of a call is on the envelope built from the
    domain the call leaves cached, and logs what [encodeDigest] answered. *)
Lemma call_digest_event t u p h td r :
  In (EncodeDigest td r)
     (new_events h (snd (createVoucher encodeDigest t u p h))) ->
  exists d,
    _domain (this (snd (createVoucher encodeDigest t u p h))) = Some d
    /\ td = envelope_of h d t u p
    /\ r = encodeDigest td.
Proof.
  split_runs h; cbn [In]; intros H;
    repeat (destruct H as [H|H]; try discriminate H);
    try contradiction; inversion H; subst;
    eexists; (split; [first [exact Hdom | reflexivity]|]);
    (split; [reflexivity|]); symmetry; exact Henc.
Qed.

(** Two successful calls with the same arguments return the same digest. *)
Lemma same_arguments_same_returned_digest t u p h mid r1 r2 :
  let h1 := snd (createVoucher encodeDigest t u p h) in
  let h2 := snd (createVouchers encodeDigest mid h1) in
  fst (createVoucher encodeDigest t u p h) = inr r1 ->
  fst (createVoucher encodeDigest t u p h2) = inr r2 ->
  digest r1 = digest r2 /\ voucher r1 = voucher r2.
Proof.
  cbn zeta. intros H1 H2.
  destruct (success_digest t u p h r1 H1) as (d & Hd1 & He1 & Hv1).
  pose proof (calls_keep_domain mid _ d Hd1) as Hd2.
  destruct (resolved_success_digest t u p _ d r2 Hd2 H2) as [He2 Hv2].
  assert (F : same_fields h
                (snd (createVouchers encodeDigest mid
                        (snd (createVoucher encodeDigest t u p h))))).
  { eapply same_fields_trans; [apply (call_frame t u p h)|apply calls_frame]. }
  rewrite (envelope_of_same _ _ d t u p F) in He2.
  split; congruence.
Qed.

(** ** The claims *)

(** C8. Leaving [minPrice] out is the same as passing zero: the two calls
    are the same computation, so from any heap they return the same voucher,
    digest and signature, hand the same message to the digest computation
    and leave the same heap. *)
Theorem createVoucher_default_minPrice t u h :
  createVoucher encodeDigest t u None h
  = createVoucher encodeDigest t u (Some (Number 0)) h
  /\ voucher_of t u None = mkVoucher t u (Number 0).
Proof. split; reflexivity. Qed.

(** C9. A call to [createVoucher], however it ends, leaves the contract
    address, the signer and the type table of the instance as they were;
    the cached domain either stays as it was or goes from unset to the
    domain built for the chain id just obtained; and on an instance whose
    domain is already cached no field changes at all. *)
Theorem createVoucher_only_caches_domain t u p h :
  let h' := snd (createVoucher encodeDigest t u p h) in
  contractAddress (this h') = contractAddress (this h)
  /\ signer (this h') = signer (this h)
  /\ types (this h') = types (this h)
  /\ (_domain (this h') = _domain (this h)
      \/ (_domain (this h) = None
          /\ exists c, _domain (this h') = Some (domain_for h c)))
  /\ (forall d, _domain (this h) = Some d -> this h' = this h).
Proof.
  cbn zeta.
  destruct (call_frame t u p h) as [(Ha & Hs & Ht) Hd].
  repeat split; try assumption.
  intros d Hsome.
  pose proof (call_keeps_domain t u p h d Hsome) as Hk.
  destruct (this (snd (createVoucher encodeDigest t u p h))) as [a1 s1 t1 d1].
  destruct (this h) as [a0 s0 t0 d0].
  cbn in *. congruence.
Qed.

(** C7. On the first call on a new instance, when the chain-id query
    answers [c], the domain that is cached, and the one placed in the
    envelope, is name [LazyNFT-Voucher], version [1], the address given to
    the constructor and chain id [c]. *)
Theorem first_call_caches_signing_domain addr (s : Signer exn World) w t u p
    c w' :
  getChainId s w = (inr c, w') ->
  let h' := snd (createVoucher encodeDigest t u p (fresh addr s w)) in
  let d := mkDomain "LazyNFT-Voucher" "1" addr c in
  _domain (this h') = Some d
  /\ exists evs, calls h' = GetChainId (inr c) :: evs
                 /\ map EIP712.domain (envelopes evs) = [d].
Proof.
  intros Hq. cbn zeta.
  rewrite createVoucher_unfold.
  rewrite (signingDomain_resolved (fresh addr s w) c w' eq_refl Hq).
  unfold resolved_heap, fresh, log. cbn.
  destruct (encodeDigest _) as [e|dg]; cbn.
  - split; [reflexivity|]. eexists; split; reflexivity.
  - destruct (signMessage s dg w') as [[e|sg] w2]; cbn;
      (split; [reflexivity|]); eexists; split; reflexivity.
Qed.

(** C4. When the chain-id query of a call is rejected with [e], the call is
    rejected with that same [e]; the query is the only thing the call asked
    of its collaborators, so no digest was computed and nothing was signed;
    the instance is as before, its domain still unset; and the next call
    starts by querying the chain id again. *)
Theorem chain_id_failure_is_surfaced_and_retried t u p h e w :
  _domain (this h) = None ->
  getChainId (signer (this h)) (world h) = (inl e, w) ->
  let h' := snd (createVoucher encodeDigest t u p h) in
  fst (createVoucher encodeDigest t u p h) = inl e
  /\ new_events h h' = [GetChainId (inl e)]
  /\ this h' = this h
  /\ _domain (this h') = None
  /\ world h' = w
  /\ forall t' u' p',
       exists evs,
         new_events h' (snd (createVoucher encodeDigest t' u' p' h'))
         = GetChainId (fst (getChainId (signer (this h)) w)) :: evs.
Proof.
  intros Hd Hq. cbn zeta.
  rewrite createVoucher_unfold, (signingDomain_rejected h e w Hd Hq).
  cbn [fst snd]. unfold log at 1 2 3 4. cbn [this world calls].
  rewrite new_events_app.
  repeat split; try assumption.
  intros t' u' p'.
  set (h1 := log (GetChainId (inl e)) h w).
  assert (Hd1 : _domain (this h1) = None) by exact Hd.
  rewrite createVoucher_unfold.
  destruct (getChainId (signer (this h1)) (world h1)) as [[e1|c1] w1] eqn:Hq1.
  - rewrite (signingDomain_rejected h1 e1 w1 Hd1 Hq1).
    cbn [snd]. unfold log at 1. rewrite new_events_app.
    change (getChainId (signer (this h)) w) with
      (getChainId (signer (this h1)) (world h1)).
    rewrite Hq1. eexists; reflexivity.
  - rewrite (signingDomain_resolved h1 c1 w1 Hd1 Hq1).
    change (getChainId (signer (this h)) w) with
      (getChainId (signer (this h1)) (world h1)).
    rewrite Hq1. cbn [fst].
    destruct (encodeDigest _) as [e2|dg];
      [|destruct (signMessage _ _ _) as [[e2|sg] w2]];
      cbn [snd]; unfold log, resolved_heap; cbn [this world calls];
      rewrite <- ?app_assoc; rewrite new_events_app;
      eexists; reflexivity.
Qed.

(** C10. When a call resolves the domain but its signing request is then
    rejected with [e], the call is rejected with [e] and returns nothing,
    yet the domain it resolved stays cached: whatever calls follow, none of
    them queries the chain id, and all of them use that domain. *)
Theorem signing_failure_keeps_domain_cached t u p h c w1 dg e w2 :
  _domain (this h) = None ->
  getChainId (signer (this h)) (world h) = (inr c, w1) ->
  encodeDigest (envelope_of h (domain_for h c) t u p) = inr dg ->
  signMessage (signer (this h)) dg w1 = (inl e, w2) ->
  let h' := snd (createVoucher encodeDigest t u p h) in
  fst (createVoucher encodeDigest t u p h) = inl e
  /\ _domain (this h') = Some (domain_for h c)
  /\ forall cs,
       let h'' := snd (createVouchers encodeDigest cs h') in
       count is_query (new_events h' h'') = 0%nat
       /\ Forall (fun td => EIP712.domain td = domain_for h c)
                 (envelopes (new_events h' h''))
       /\ _domain (this h'') = Some (domain_for h c).
Proof.
  intros Hd Hq Henc Hsig. cbn zeta.
  assert (R : createVoucher encodeDigest t u p h
              = (inl e,
                 mkHeap (this (resolved_heap h c w1)) w2
                   (calls h ++ [GetChainId (inr c);
                                EncodeDigest (envelope_of h (domain_for h c) t u p)
                                             (inr dg);
                                SignMessage dg (inl e)]))).
  { rewrite createVoucher_unfold, (signingDomain_resolved h c w1 Hd Hq).
    change (envelope_of (resolved_heap h c w1) (domain_for h c) t u p)
      with (envelope_of h (domain_for h c) t u p).
    cbn zeta. rewrite Henc.
    change (signer (this (resolved_heap h c w1))) with (signer (this h)).
    change (world (resolved_heap h c w1)) with w1.
    rewrite Hsig. unfold log, resolved_heap. cbn [this world calls].
    now rewrite <- !app_assoc. }
  rewrite R. cbn [fst snd].
  split; [reflexivity|]. split; [reflexivity|].
  intros cs. cbn zeta.
  set (h' := mkHeap _ _ _).
  assert (Hd' : _domain (this h') = Some (domain_for h c)) by reflexivity.
  destruct (resolved_calls_events cs h' _ Hd') as [Q E].
  repeat split; try assumption.
  now apply calls_keep_domain.
Qed.

(** C6. On one instance, two calls with the same token id, uri and minimum
    price that both reach the digest computation compute it on the same
    envelope and obtain the same digest bytes, whatever calls were made in
    between. *)
Theorem same_arguments_same_digest t u p h mid dg1 dg2 td1 td2 :
  let h1 := snd (createVoucher encodeDigest t u p h) in
  let h2 := snd (createVouchers encodeDigest mid h1) in
  let h3 := snd (createVoucher encodeDigest t u p h2) in
  In (EncodeDigest td1 (inr dg1)) (new_events h h1) ->
  In (EncodeDigest td2 (inr dg2)) (new_events h2 h3) ->
  td1 = td2 /\ dg1 = dg2.
Proof.
  cbn zeta. intros H1 H2.
  destruct (call_digest_event t u p h td1 _ H1) as (d & Hd1 & E1 & R1).
  pose proof (calls_keep_domain mid _ d Hd1) as Hd2.
  destruct (call_digest_event t u p _ td2 _ H2) as (d' & Hd3 & E2 & R2).
  rewrite (call_keeps_domain t u p _ d Hd2) in Hd3. injection Hd3 as <-.
  assert (F : same_fields h
                (snd (createVouchers encodeDigest mid
                        (snd (createVoucher encodeDigest t u p h))))).
  { eapply same_fields_trans; [apply (call_frame t u p h)|apply calls_frame]. }
  rewrite (envelope_of_same _ _ d t u p F) in E2.
  assert (T : td1 = td2) by congruence.
  split; [exact T|]. subst td2. congruence.
Qed.

(** C5 (as amended). Over any sequence of calls on a new instance, at most
    one chain-id query is answered; nothing is queried after the answered
    one; and so the queries number at most one more than the rejected
    ones. *)
Theorem chain_id_query_answered_at_most_once addr (s : Signer exn World) w cs :
  let evs := calls (snd (createVouchers encodeDigest cs (fresh addr s w))) in
  (count is_query_ok evs <= 1)%nat
  /\ (forall l1 c l2, evs = l1 ++ GetChainId (inr c) :: l2 ->
                      count is_query l2 = 0%nat)
  /\ (count is_query evs <= count is_query_failed evs + 1)%nat.
Proof.
  cbn zeta.
  destruct (calls_queries cs (fresh addr s w)) as [B S].
  unfold new_events in B, S. cbn [fresh calls length skipn] in B, S.
  repeat split; try assumption.
  rewrite count_query_split. lia.
Qed.

(** C2 (as amended). Every envelope handed to the digest computation, over
    any sequence of calls on a new instance, has primary type [NFTVoucher],
    and its type table holds exactly the four-field [EIP712Domain] and the
    three-field [NFTVoucher] (tokenId, minPrice: uint256; uri: string), in
    that order. *)
Theorem envelope_names_NFTVoucher addr (s : Signer exn World) w cs :
  Forall
    (fun td =>
       EIP712.primaryType td = "NFTVoucher"
       /\ EIP712.types td =
            [ ("EIP712Domain",
                [ mkField "name" "string"; mkField "version" "string";
                  mkField "chainId" "uint256";
                  mkField "verifyingContract" "address" ]);
              ("NFTVoucher",
                [ mkField "tokenId" "uint256"; mkField "minPrice" "uint256";
                  mkField "uri" "string" ]) ])
    (envelopes (calls (snd (createVouchers encodeDigest cs (fresh addr s w))))).
Proof.
  pose proof (calls_envelopes cs (fresh addr s w)) as H.
  unfold new_events in H. cbn [fresh calls length skipn] in H.
  exact H.
Qed.

(** C3 (as amended). [createVoucher] checks nothing about [tokenId] or
    [minPrice]: whatever they are, an unresolved instance first queries the
    chain id, a resolved one goes straight to the digest computation, and
    the values are placed in the message as given.  When the digest
    computation rejects the envelope, the call is rejected with that error
    and no signing request is made. *)
Theorem createVoucher_validates_nothing t u p h :
  let r := fst (createVoucher encodeDigest t u p h) in
  let evs := new_events h (snd (createVoucher encodeDigest t u p h)) in
  (_domain (this h) = None -> exists r0 rest, evs = GetChainId r0 :: rest)
  /\ (forall d, _domain (this h) = Some d ->
        exists r0 rest, evs = EncodeDigest (envelope_of h d t u p) r0 :: rest)
  /\ Forall (fun td => EIP712.message td
                       = mkVoucher t u (match p with
                                        | Some x => x
                                        | None => Number 0
                                        end))
            (envelopes evs)
  /\ (forall td e, In (EncodeDigest td (inl e)) evs ->
        r = inl e /\ count is_signing evs = 0%nat).
Proof.
  cbn zeta. split; [|split; [|split]].
  - intros Hd.
    destruct (unresolved_call_events t u p h Hd)
      as [(e & E & _)|(c & rest & E & _)]; rewrite E; eauto.
  - intros d Hd. split_runs h; try congruence;
      assert (d0 = d) by congruence; subst d0; eauto.
  - eapply Forall_impl; [|apply (call_envelopes t u p h)].
    cbn beta. intuition.
  - intros td e. split_runs h; cbn [In]; intros H;
      repeat (destruct H as [H|H]; try discriminate H);
      try contradiction; inversion H; subst; split; reflexivity.
Qed.

(** C1 (as amended). The signature a successful call returns is what the
    signer's [signMessage] answered when handed the digest, the very bytes
    [encodeDigest] returned for the envelope and that the call returns as
    [digest]; that is the only signing request of the call.  The digest has
    32 bytes whenever [encodeDigest] yields 32 bytes.  What the signer signs
    inside [signMessage] is its own affair. *)
Theorem signature_is_signMessage_of_digest t u p h r :
  (forall td dg, encodeDigest td = inr dg -> length dg = 32%nat) ->
  fst (createVoucher encodeDigest t u p h) = inr r ->
  let h' := snd (createVoucher encodeDigest t u p h) in
  exists d,
    _domain (this h') = Some d
    /\ encodeDigest (envelope_of h d t u p) = inr (digest r)
    /\ length (digest r) = 32%nat
    /\ signMessage (signer (this h)) (digest r)
                   (world (snd (_signingDomain h)))
       = (inr (signature r), world h')
    /\ filter is_signing (new_events h h')
       = [SignMessage (digest r) (inr (signature r))].
Proof.
  intros Hlen. cbn zeta.
  split_runs h; intros H; try discriminate H; injection H as <-;
    cbn [digest signature filter is_signing];
    eexists; (split; [first [exact Hdom | reflexivity]|]);
    (split; [exact Henc|]);
    (split; [exact (Hlen _ _ Henc)|]);
    (split; [exact Hsig | reflexivity]).
Qed.

(** ** Further properties of the class *)

Lemma formatVoucher_unfold v h :
  _formatVoucher v h =
    match _signingDomain h with
    | (inl e, h1) => (inl e, h1)
    | (inr d, h1) => (inr (EIP712.mk d (types (this h1)) "NFTVoucher" v), h1)
    end.
Proof.
  unfold _formatVoucher, bind, read_this, ret.
  now destruct (_signingDomain h) as [[e|d] h1].
Qed.

(** X1. Once [_signingDomain] has resolved, calling it again gives the same
    domain and touches nothing: no query, no change of the heap. *)
Theorem signingDomain_is_memoized h d h1 :
  _signingDomain h = (inr d, h1) ->
  _domain (this h1) = Some d /\ _signingDomain h1 = (inr d, h1).
Proof.
  intros H.
  assert (Hd : _domain (this h1) = Some d).
  { destruct (_domain (this h)) as [d0|] eqn:Hdom.
    - rewrite (signingDomain_cached h d0 Hdom) in H.
      injection H as <- <-. exact Hdom.
    - destruct (getChainId (signer (this h)) (world h)) as [[e|c] w] eqn:Hq.
      + rewrite (signingDomain_rejected h e w Hdom Hq) in H. discriminate H.
      + rewrite (signingDomain_resolved h c w Hdom Hq) in H.
        injection H as <- <-. reflexivity. }
  split; [exact Hd|]. now apply signingDomain_cached.
Qed.

(** X2. [_formatVoucher] asks for nothing but the domain: it computes no digest
    and requests no signature; on an instance whose domain is cached it
    leaves the heap as it is; and the envelope it returns carries the
    voucher it was given, the type table of the instance and the domain that
    is cached when it returns. *)
Theorem formatVoucher_only_resolves_domain v h :
  let r := fst (_formatVoucher v h) in
  let h' := snd (_formatVoucher v h) in
  count is_digest (new_events h h') = 0%nat
  /\ count is_signing (new_events h h') = 0%nat
  /\ (forall d, _domain (this h) = Some d ->
        h' = h /\ r = inr (EIP712.mk d (types (this h)) "NFTVoucher" v))
  /\ (forall td, r = inr td ->
        EIP712.message td = v
        /\ EIP712.types td = types (this h)
        /\ EIP712.primaryType td = "NFTVoucher"
        /\ _domain (this h') = Some (EIP712.domain td)).
Proof.
  cbn zeta. rewrite formatVoucher_unfold.
  destruct (_domain (this h)) as [d0|] eqn:Hdom.
  - rewrite (signingDomain_cached h d0 Hdom). cbn [fst snd].
    rewrite new_events_refl. repeat split; try reflexivity.
    + congruence.
    + injection H as <-. reflexivity.
    + injection H as <-. reflexivity.
    + injection H as <-. reflexivity.
    + injection H as <-. exact Hdom.
  - destruct (getChainId (signer (this h)) (world h)) as [[e|c] w] eqn:Hq.
    + rewrite (signingDomain_rejected h e w Hdom Hq). cbn [fst snd].
      unfold log. rewrite new_events_app.
      repeat split; try reflexivity; try congruence; discriminate.
    + rewrite (signingDomain_resolved h c w Hdom Hq). cbn [fst snd].
      unfold resolved_heap. rewrite new_events_app.
      repeat split; try reflexivity; try congruence;
        injection H as <-; reflexivity.
Qed.

(** X3. A rejected call is rejected with what its last request to a
    collaborator was rejected with, and every request before that one was
    answered; in a successful call every request was answered.  The class
    throws nothing of its own and asks for nothing after a failure. *)
Theorem rejection_is_last_collaborator_failure t u p h :
  let evs := new_events h (snd (createVoucher encodeDigest t u p h)) in
  match fst (createVoucher encodeDigest t u p h) with
  | inl e =>
      exists pre ev,
        evs = pre ++ [ev]
        /\ event_error ev = Some e
        /\ Forall (fun x => event_error x = None) pre
  | inr _ => Forall (fun x => event_error x = None) evs /\ evs <> []
  end.
Proof.
  cbn zeta. split_runs h;
    first
      [ split; [repeat constructor | discriminate]
      | exists []; eexists; split; [reflexivity|];
        split; [reflexivity | constructor]
      | eexists [_]; eexists; split; [reflexivity|];
        split; [reflexivity | repeat constructor]
      | eexists [_; _]; eexists; split; [reflexivity|];
        split; [reflexivity | repeat constructor] ].
Qed.

(** X4. The digest a successful call returns is the digest of the voucher it
    returns, under the domain cached on the instance and its type table;
    and the voucher holds the arguments as given, a missing [minPrice]
    being zero. *)
Theorem returned_digest_is_digest_of_returned_voucher t u p h r :
  fst (createVoucher encodeDigest t u p h) = inr r ->
  let h' := snd (createVoucher encodeDigest t u p h) in
  exists d,
    _domain (this h') = Some d
    /\ encodeDigest (EIP712.mk d (types (this h')) "NFTVoucher" (voucher r))
       = inr (digest r)
    /\ tokenId (voucher r) = t
    /\ uri (voucher r) = u
    /\ minPrice (voucher r) = match p with Some x => x | None => Number 0 end.
Proof.
  intros H. cbn zeta.
  destruct (success_digest t u p h r H) as (d & Hd & He & Hv).
  exists d. split; [exact Hd|].
  destruct (call_frame t u p h) as [(_ & _ & Ht) _]. rewrite Ht, Hv.
  repeat split. exact He.
Qed.

(** ** Over the lifetime of an instance *)

Lemma call_signing_shape t u p h :
  let evs := new_events h (snd (createVoucher encodeDigest t u p h)) in
  (count is_signing evs <= 1)%nat
  /\ forall l1 msg r l2, evs = l1 ++ SignMessage msg r :: l2 ->
       exists l0 td,
         l1 = l0 ++ [EncodeDigest td (inr msg)]
         /\ EIP712.primaryType td = "NFTVoucher"
         /\ EIP712.message td = voucher_of t u p.
Proof.
  cbn zeta. split_runs h; (split; [cbn; lia|]);
    intros l1 msg r l2 E;
    repeat (destruct l1 as [|? l1]; cbn [app] in E; try discriminate E;
            try (injection E as ? E; try discriminate));
    subst;
    first
      [ exists []; eexists; (split; [reflexivity|]); split; reflexivity
      | eexists [_]; eexists; (split; [reflexivity|]); split; reflexivity ].
Qed.

Lemma answered_app (l1 l2 : list (Event exn)) :
  answered (l1 ++ l2) = answered l1 ++ answered l2.
Proof.
  induction l1 as [|[r|td r|m [e|sg]] l1 IH]; cbn [answered app];
    now rewrite ?IH.
Qed.

Lemma call_answered t u p h :
  returned [fst (createVoucher encodeDigest t u p h)]
  = answered (new_events h (snd (createVoucher encodeDigest t u p h))).
Proof. split_runs h; reflexivity. Qed.

Lemma call_envelope_domain t u p h :
  let h' := snd (createVoucher encodeDigest t u p h) in
  Forall (fun td => _domain (this h') = Some (EIP712.domain td))
         (envelopes (new_events h h')).
Proof.
  split_runs h; cbn [envelopes]; repeat constructor; exact Hdom.
Qed.

Lemma calls_envelope_domain cs : forall h,
  let h' := snd (createVouchers encodeDigest cs h) in
  Forall (fun td => _domain (this h') = Some (EIP712.domain td))
         (envelopes (new_events h h')).
Proof.
  induction cs as [|c cs IH]; intros h; cbn zeta.
  - cbn [createVouchers snd]. rewrite new_events_refl. constructor.
  - rewrite calls_events_cons, envelopes_app. apply Forall_app.
    rewrite createVouchers_cons. cbn [snd]. split; [|apply IH].
    eapply Forall_impl;
      [|apply (call_envelope_domain (call_tokenId c) (call_uri c)
                 (call_minPrice c) h)].
    cbn beta. intros td Hd. now apply calls_keep_domain.
Qed.

Lemma call_keeps_domain_ok t u p h :
  cached_domain_ok h ->
  cached_domain_ok (snd (createVoucher encodeDigest t u p h)).
Proof.
  unfold cached_domain_ok, domain_for. intros Hok.
  split_runs h; intros d Hd;
    try (rewrite Hdom in Hd; destruct (Hok d Hd) as [E I]; split; [exact E|];
         apply in_or_app; now left);
    try congruence;
    injection Hd as <-; cbn [chainId]; (split; [reflexivity|]);
    apply in_or_app; right; now left.
Qed.

Lemma calls_keep_domain_ok cs : forall h,
  cached_domain_ok h ->
  cached_domain_ok (snd (createVouchers encodeDigest cs h)).
Proof.
  induction cs as [|c cs IH]; intros h Hok; [exact Hok|].
  rewrite createVouchers_cons. cbn [snd]. apply IH.
  now apply call_keeps_domain_ok.
Qed.

Lemma fresh_envelopes_domain addr (s : Signer exn World) w cs :
  let h' := snd (createVouchers encodeDigest cs (fresh addr s w)) in
  Forall (fun td =>
            _domain (this h') = Some (EIP712.domain td)
            /\ EIP712.domain td
               = mkDomain "LazyNFT-Voucher" "1" addr (chainId (EIP712.domain td))
            /\ In (GetChainId (inr (chainId (EIP712.domain td)))) (calls h'))
         (envelopes (calls h')).
Proof.
  cbn zeta.
  pose proof (calls_envelope_domain cs (fresh addr s w)) as H.
  unfold new_events in H. cbn [fresh calls length skipn] in H.
  assert (Hok : cached_domain_ok
                  (snd (createVouchers encodeDigest cs (fresh addr s w)))).
  { apply calls_keep_domain_ok. intros d Hd. discriminate Hd. }
  destruct (calls_frame cs (fresh addr s w)) as (Ha & _ & _).
  eapply Forall_impl; [|exact H]. cbn beta. intros td Hd.
  destruct (Hok _ Hd) as [E I]. unfold domain_for in E. rewrite Ha in E.
  repeat split; assumption.
Qed.

Lemma call_digest_events t u p h :
  let h' := snd (createVoucher encodeDigest t u p h) in
  filter is_digest (new_events h h')
  = match _domain (this h') with
    | Some d => [EncodeDigest (envelope_of h d t u p)
                              (encodeDigest (envelope_of h d t u p))]
    | None => []
    end.
Proof.
  split_runs h; rewrite ?Hdom; cbn [filter is_digest];
    unfold envelope_of in *; cbn [this types] in *;
    rewrite ?Henc; reflexivity.
Qed.

(** X5. Every signing request made over a sequence of calls comes right after
    a digest computation that returned the very bytes to be signed, for an
    [NFTVoucher] envelope whose message is the voucher of one of the calls;
    and there is at most one signing request per call.  The signer is never
    asked to sign anything else. *)
Theorem signing_requests_follow_digests cs : forall h,
  let evs := new_events h (snd (createVouchers encodeDigest cs h)) in
  (count is_signing evs <= length cs)%nat
  /\ forall l1 msg r l2, evs = l1 ++ SignMessage msg r :: l2 ->
       exists l0 td,
         l1 = l0 ++ [EncodeDigest td (inr msg)]
         /\ EIP712.primaryType td = "NFTVoucher"
         /\ exists c, In c cs
                      /\ EIP712.message td
                         = voucher_of (call_tokenId c) (call_uri c)
                                      (call_minPrice c).
Proof.
  induction cs as [|c cs IH]; intros h; cbn zeta.
  - cbn [createVouchers snd]. rewrite new_events_refl. split; [cbn; lia|].
    intros [|x l1] msg r l2 E; discriminate E.
  - rewrite calls_events_cons. unfold run_call.
    destruct (call_signing_shape (call_tokenId c) (call_uri c)
                (call_minPrice c) h) as [B1 S1].
    set (h1 := snd (createVoucher encodeDigest (call_tokenId c) (call_uri c)
                      (call_minPrice c) h)) in *.
    destruct (IH h1) as [B2 S2]. split.
    + rewrite count_app. cbn [length]. lia.
    + intros l1 msg r l2 E.
      apply app_eq_app in E. destruct E as (l & [[E1 E2]|[E1 E2]]).
      * destruct l as [|x l].
        -- cbn [app] in E2. rewrite app_nil_r in E1. subst l1.
           destruct (S2 [] msg r l2 (eq_sym E2)) as (l0 & td & E0 & _).
           destruct l0; discriminate E0.
        -- cbn [app] in E2. injection E2 as <- E2.
           destruct (S1 l1 msg r l E1) as (l0 & td & E0 & Hp & Hm).
           exists l0, td. repeat split; try assumption.
           exists c. split; [now left|exact Hm].
      * destruct (S2 l msg r l2 E2) as (l0 & td & E0 & Hp & c' & Hin & Hm).
        exists (new_events h h1 ++ l0), td. split.
        -- rewrite E1, E0. now rewrite app_assoc.
        -- split; [exact Hp|]. exists c'. split; [now right|exact Hm].
Qed.

(** X6. What callers get back over a sequence of calls is exactly what the
    signer answered: the (digest, signature) pairs of the returned results
    are, in order, the (message, signature) pairs of the answered signing
    requests.  No answer is dropped, none is returned twice. *)
Theorem returned_signatures_are_signer_answers cs : forall h,
  returned (fst (createVouchers encodeDigest cs h))
  = answered (new_events h (snd (createVouchers encodeDigest cs h))).
Proof.
  induction cs as [|c cs IH]; intros h.
  - cbn [createVouchers fst snd returned]. now rewrite new_events_refl.
  - rewrite calls_events_cons, answered_app.
    rewrite createVouchers_cons. cbn [fst]. unfold run_call.
    rewrite <- IH, <- call_answered.
    now destruct (fst (createVoucher encodeDigest _ _ _ h)).
Qed.

(** X7. All envelopes hashed over the lifetime of an instance carry one and the
    same domain, the one cached at the end: its name and version are the
    two constants, its contract is the address given to the constructor,
    and its chain id is one the signer answered. *)
Theorem lifetime_envelopes_share_domain addr (s : Signer exn World) w cs :
  let h' := snd (createVouchers encodeDigest cs (fresh addr s w)) in
  Forall (fun td =>
            _domain (this h') = Some (EIP712.domain td)
            /\ name (EIP712.domain td) = "LazyNFT-Voucher"
            /\ version (EIP712.domain td) = "1"
            /\ verifyingContract (EIP712.domain td) = addr
            /\ In (GetChainId (inr (chainId (EIP712.domain td)))) (calls h'))
         (envelopes (calls h')).
Proof.
  cbn zeta. eapply Forall_impl; [|apply fresh_envelopes_domain].
  cbn beta. intros td (Hd & E & I).
  repeat split; try assumption; rewrite E; reflexivity.
Qed.

(** X8. Instances made for different contract addresses never hash the same
    envelope, whatever their signers and whatever calls they serve. *)
Theorem different_contracts_different_envelopes addr1 addr2
    (s1 s2 : Signer exn World) w1 w2 cs1 cs2 :
  addr1 <> addr2 ->
  Forall (fun td1 =>
            Forall (fun td2 => td1 <> td2)
                   (envelopes (calls (snd (createVouchers encodeDigest cs2
                                             (fresh addr2 s2 w2))))))
         (envelopes (calls (snd (createVouchers encodeDigest cs1
                                   (fresh addr1 s1 w1))))).
Proof.
  intros Hne.
  eapply Forall_impl; [|apply (fresh_envelopes_domain addr1 s1 w1 cs1)].
  cbn beta. intros td1 (_ & E1 & _).
  eapply Forall_impl; [|apply (fresh_envelopes_domain addr2 s2 w2 cs2)].
  cbn beta. intros td2 (_ & E2 & _) Heq. subst td2.
  rewrite E1 in E2. apply Hne. congruence.
Qed.

(** X9. What a call hashes, and what the digest computation answers, depend
    only on the arguments, the type table and the domain: two instances
    with the same type table that end a call with the same cached domain
    made the same digest computations in it, whatever their signers,
    worlds and earlier calls. *)
Theorem digest_depends_on_domain_and_arguments t u p h1 h2 :
  let h1' := snd (createVoucher encodeDigest t u p h1) in
  let h2' := snd (createVoucher encodeDigest t u p h2) in
  types (this h1) = types (this h2) ->
  _domain (this h1') = _domain (this h2') ->
  filter is_digest (new_events h1 h1') = filter is_digest (new_events h2 h2').
Proof.
  cbn zeta. intros Ht Hd.
  rewrite (call_digest_events t u p h1), (call_digest_events t u p h2).
  rewrite Hd. unfold envelope_of. now rewrite Ht.
Qed.

End Properties.

(** * The claims on the test doubles *)

Lemma absorb_length acc b : length (Double.absorb acc b) = length acc.
Proof.
  destruct acc as [|a rest]; [reflexivity|].
  cbn [Double.absorb]. rewrite length_app. cbn [length]. lia.
Qed.

Lemma checksum32_length bs : length (Double.checksum32 bs) = 32%nat.
Proof.
  unfold Double.checksum32.
  assert (G : forall acc, length (fold_left Double.absorb bs acc) = length acc).
  { induction bs as [|b bs IH]; intros acc; [reflexivity|].
    cbn [fold_left]. now rewrite IH, absorb_length. }
  rewrite G. reflexivity.
Qed.

Lemma double_digest_length td dg :
  Double.encodeDigest td = inr dg -> length dg = 32%nat.
Proof.
  unfold Double.encodeDigest.
  destruct (Double.as_uint256 _); [|discriminate].
  destruct (Double.as_uint256 _); [|discriminate].
  intros H. injection H as <-. apply checksum32_length.
Qed.

(** C1, witness: the wallet-like signer, token 42. *)
Lemma signature_is_signMessage_of_digest_witness :
  exists r,
    fst (createVoucher Double.encodeDigest (Number 42) "ipfs://test"
           (Some (Number 1000)) (fresh Double.address Double.walletSigner 0%nat))
    = inr r
    /\ length (digest r) = 32%nat
    /\ filter is_signing
         (calls (snd (createVoucher Double.encodeDigest (Number 42)
                        "ipfs://test" (Some (Number 1000))
                        (fresh Double.address Double.walletSigner 0%nat))))
       = [SignMessage (digest r) (inr (signature r))].
Proof.
  eexists. split; [reflexivity|].
  destruct (signature_is_signMessage_of_digest Double.encodeDigest
              (Number 42) "ipfs://test" (Some (Number 1000))
              (fresh Double.address Double.walletSigner 0%nat) _
              double_digest_length eq_refl)
    as (d & _ & _ & Hl & _ & Hf).
  split; [exact Hl|exact Hf].
Defined.

(** C1, counterexample: with a signer built as an ethers wallet is, the
    signature returned is the raw signature of the prefixed hash of the
    digest, and is not the raw signature of the digest. *)
Lemma wallet_signature_is_over_prefixed_hash :
  match createVoucher Double.encodeDigest (Number 42) "ipfs://test"
          (Some (Number 1000)) (fresh Double.address Double.walletSigner 0%nat)
  with
  | (inr r, _) =>
      signature r = Double.signDigest (Double.hashMessage (digest r))
      /\ signature r <> Double.signDigest (digest r)
  | (inl _, _) => False
  end.
Proof. vm_compute. split; [reflexivity|discriminate]. Qed.

(** C2, counterexample: the envelope of a call names its primary type
    [NFTVoucher], not [Voucher], and its type table has no [Voucher]. *)
Lemma envelope_primaryType_is_not_Voucher :
  exists td,
    envelopes (calls (snd (createVoucher Double.encodeDigest (Number 1)
                             "ipfs://abc" None
                             (fresh Double.address Double.rawSigner 0%nat))))
    = [td]
    /\ EIP712.primaryType td = "NFTVoucher"
    /\ EIP712.primaryType td <> "Voucher"
    /\ map fst (EIP712.types td) = ["EIP712Domain"; "NFTVoucher"]
    /\ ~ In "Voucher" (map fst (EIP712.types td)).
Proof.
  eexists. split; [reflexivity|]. cbn.
  split; [reflexivity|]. split; [discriminate|]. split; [reflexivity|].
  intros [H|[H|[]]]; discriminate H.
Qed.

(** C3, counterexample: a negative token id does not stop the chain-id
    query from being made (here it fails, and its failure is what the call
    reports); a fractional token id with a negative price goes through
    domain resolution, which is cached, and reaches the digest computation. *)
Lemma invalid_numbers_are_not_rejected_up_front :
  createVoucher Double.encodeDigest (Number (-1)) "ipfs://abc" None
    (fresh Double.address Double.offlineSigner 0%nat)
  = (inl "could not detect network",
     mkHeap (new_LazyMinter Double.address Double.offlineSigner) 1%nat
            [GetChainId (inl "could not detect network")])
  /\ calls (snd (createVoucher Double.encodeDigest (Number (1 # 2)) "ipfs://abc"
                   (Some (BigNumber (-5)))
                   (fresh Double.address Double.rawSigner 0%nat)))
     = [ GetChainId (inr 31337%Z);
         EncodeDigest
           (EIP712.mk (mkDomain "LazyNFT-Voucher" "1" Double.address 31337)
                      TYPES "NFTVoucher"
                      (mkVoucher (Number (1 # 2)) "ipfs://abc" (BigNumber (-5))))
           (inl "value out-of-bounds") ]
  /\ _domain (this (snd (createVoucher Double.encodeDigest (Number (1 # 2))
                           "ipfs://abc" (Some (BigNumber (-5)))
                           (fresh Double.address Double.rawSigner 0%nat))))
     = Some (mkDomain "LazyNFT-Voucher" "1" Double.address 31337).
Proof. repeat split; reflexivity. Qed.

(** C4, witness: the provider of the signer cannot be reached. *)
Lemma chain_id_failure_is_surfaced_and_retried_witness :
  fst (createVoucher Double.encodeDigest (Number 1) "ipfs://abc" None
         (fresh Double.address Double.offlineSigner 0%nat))
  = inl "could not detect network"
  /\ calls (snd (createVoucher Double.encodeDigest (Number 1) "ipfs://abc" None
                   (fresh Double.address Double.offlineSigner 0%nat)))
     = [GetChainId (inl "could not detect network")].
Proof.
  destruct (chain_id_failure_is_surfaced_and_retried Double.encodeDigest
              (Number 1) "ipfs://abc" None
              (fresh Double.address Double.offlineSigner 0%nat)
              "could not detect network" 1%nat eq_refl eq_refl)
    as (H1 & H2 & _).
  split; [exact H1|exact H2].
Defined.

(** C5, counterexample: a signer that cannot reach its provider is queried
    by each of three calls. *)
Lemma offline_signer_is_queried_by_every_call :
  count is_query
    (calls (snd (createVouchers Double.encodeDigest
                   [ mkCall (Number 1) "ipfs://a" None;
                     mkCall (Number 2) "ipfs://b" None;
                     mkCall (Number 3) "ipfs://c" None ]
                   (fresh Double.address Double.offlineSigner 0%nat))))
  = 3%nat.
Proof. reflexivity. Qed.

(** A signer whose provider answers from the second request on: the first
    call is rejected, the second resolves the domain, the third reuses it. *)
Example flaky_signer_is_queried_twice :
  map is_query
    (calls (snd (createVouchers Double.encodeDigest
                   [ mkCall (Number 1) "ipfs://a" None;
                     mkCall (Number 2) "ipfs://b" None;
                     mkCall (Number 3) "ipfs://c" None ]
                   (fresh Double.address Double.flakySigner 0%nat))))
  = [true; true; false; false; false; false].
Proof. reflexivity. Qed.

(** C6, witness: the same voucher asked for twice, another one in between. *)
Lemma same_arguments_same_digest_witness :
  exists td1 dg1 td2 dg2,
    In (EncodeDigest td1 (inr dg1))
       (calls (snd (createVoucher Double.encodeDigest (Number 42) "ipfs://test"
                      (Some (Number 1000))
                      (fresh Double.address Double.rawSigner 0%nat))))
    /\ In (EncodeDigest td2 (inr dg2))
          (new_events
             (snd (createVouchers Double.encodeDigest
                     [mkCall (Number 7) "ipfs://other" None]
                     (snd (createVoucher Double.encodeDigest (Number 42)
                             "ipfs://test" (Some (Number 1000))
                             (fresh Double.address Double.rawSigner 0%nat)))))
             (snd (createVoucher Double.encodeDigest (Number 42) "ipfs://test"
                     (Some (Number 1000))
                     (snd (createVouchers Double.encodeDigest
                             [mkCall (Number 7) "ipfs://other" None]
                             (snd (createVoucher Double.encodeDigest (Number 42)
                                     "ipfs://test" (Some (Number 1000))
                                     (fresh Double.address Double.rawSigner
                                            0%nat))))))))
    /\ dg1 = dg2.
Proof.
  do 4 eexists.
  split; [right; left; reflexivity|].
  split; [left; reflexivity|].
  exact (proj2 (same_arguments_same_digest Double.encodeDigest (Number 42)
                  "ipfs://test" (Some (Number 1000))
                  (fresh Double.address Double.rawSigner 0%nat)
                  [mkCall (Number 7) "ipfs://other" None] _ _ _ _
                  (or_intror (or_introl eq_refl)) (or_introl eq_refl))).
Defined.

(** C7, witness: a new instance on the local chain. *)
Lemma first_call_caches_signing_domain_witness :
  _domain (this (snd (createVoucher Double.encodeDigest (Number 1) "ipfs://abc"
                        None (fresh Double.address Double.rawSigner 0%nat))))
  = Some (mkDomain "LazyNFT-Voucher" "1"
                   "0x5FbDB2315678afecb367f032d93F642f64180aa3" 31337).
Proof.
  exact (proj1 (first_call_caches_signing_domain Double.encodeDigest
                  Double.address Double.rawSigner 0%nat (Number 1) "ipfs://abc"
                  None 31337%Z 1%nat eq_refl)).
Defined.

(** C10, witness: the user rejects the signing request, then two more
    calls are made. *)
Lemma signing_failure_keeps_domain_cached_witness :
  fst (createVoucher Double.encodeDigest (Number 1) "ipfs://abc" None
         (fresh Double.address Double.lockedSigner 0%nat))
  = inl "user rejected signing"
  /\ _domain (this (snd (createVoucher Double.encodeDigest (Number 1)
                           "ipfs://abc" None
                           (fresh Double.address Double.lockedSigner 0%nat))))
     = Some (mkDomain "LazyNFT-Voucher" "1" Double.address 31337)
  /\ count is_query
       (calls (snd (createVouchers Double.encodeDigest
                      [ mkCall (Number 1) "ipfs://abc" None;
                        mkCall (Number 2) "ipfs://def" None;
                        mkCall (Number 3) "ipfs://ghi" None ]
                      (fresh Double.address Double.lockedSigner 0%nat))))
     = 1%nat.
Proof.
  destruct (signing_failure_keeps_domain_cached Double.encodeDigest
              (Number 1) "ipfs://abc" None
              (fresh Double.address Double.lockedSigner 0%nat)
              31337%Z 1%nat _ "user rejected signing" 2%nat
              eq_refl eq_refl eq_refl eq_refl)
    as (H1 & H2 & _).
  split; [exact H1|]. split; [exact H2|reflexivity].
Defined.

(** * The further properties on the test doubles *)

(** Resolving the domain of a new instance, then asking again. *)
Lemma signingDomain_is_memoized_witness :
  _signingDomain (snd (_signingDomain
                         (fresh Double.address Double.rawSigner 0%nat)))
  = (inr (mkDomain "LazyNFT-Voucher" "1" Double.address 31337),
     snd (_signingDomain (fresh Double.address Double.rawSigner 0%nat))).
Proof.
  exact (proj2 (signingDomain_is_memoized
                  (fresh Double.address Double.rawSigner 0%nat) _ _ eq_refl)).
Defined.

(** A voucher made without a minimum price: its digest is recomputed from
    the voucher returned and the domain of the local chain. *)
Lemma returned_digest_is_digest_of_returned_voucher_witness :
  exists r,
    fst (createVoucher Double.encodeDigest (Number 42) "ipfs://test" None
           (fresh Double.address Double.rawSigner 0%nat))
    = inr r
    /\ Double.encodeDigest
         (EIP712.mk (mkDomain "LazyNFT-Voucher" "1" Double.address 31337)
                    TYPES "NFTVoucher" (voucher r))
       = inr (digest r)
    /\ minPrice (voucher r) = Number 0.
Proof.
  eexists. split; [reflexivity|].
  destruct (returned_digest_is_digest_of_returned_voucher Double.encodeDigest
              (Number 42) "ipfs://test" None
              (fresh Double.address Double.rawSigner 0%nat) _ eq_refl)
    as (d & Hd & He & _ & _ & Hm).
  injection Hd as <-. split; [exact He|exact Hm].
Defined.

(** Two deployments of the contract on the local chain. *)
Lemma different_contracts_different_envelopes_witness :
  Forall (fun td1 =>
            Forall (fun td2 => td1 <> td2)
                   (envelopes
                      (calls (snd (createVouchers Double.encodeDigest
                                     [mkCall (Number 1) "ipfs://abc" None]
                                     (fresh "0xe7f1725E7734CE288F8367e1Bb143E90bb3F0512"
                                            Double.rawSigner 0%nat))))))
         (envelopes
            (calls (snd (createVouchers Double.encodeDigest
                           [mkCall (Number 1) "ipfs://abc" None]
                           (fresh "0x5FbDB2315678afecb367f032d93F642f64180aa3"
                                  Double.rawSigner 0%nat))))).
Proof.
  apply (different_contracts_different_envelopes Double.encodeDigest).
  discriminate.
Defined.

(** Two instances for the same contract and chain, one with the raw signer
    and one with the wallet-like signer, in different worlds. *)
Lemma digest_depends_on_domain_and_arguments_witness :
  filter is_digest
    (calls (snd (createVoucher Double.encodeDigest (Number 42) "ipfs://test"
                   (Some (Number 1000))
                   (fresh Double.address Double.rawSigner 0%nat))))
  = filter is_digest
      (calls (snd (createVoucher Double.encodeDigest (Number 42) "ipfs://test"
                     (Some (Number 1000))
                     (fresh Double.address Double.walletSigner 5%nat)))).
Proof.
  exact (digest_depends_on_domain_and_arguments Double.encodeDigest
           (Number 42) "ipfs://test" (Some (Number 1000))
           (fresh Double.address Double.rawSigner 0%nat)
           (fresh Double.address Double.walletSigner 5%nat) eq_refl eq_refl).
Defined.
